(** * Vantage Weather: the coordinator, the sensor projections and the
    config-flow host validation, embedded and verified.

    The Python sources are [coordinator.py], [sensor.py], [config_flow.py]
    and [const.py] of the [vantage_weather] package.  Python values that come
    out of [response.json()] are modelled by the type [json]; Python
    exceptions by their class; the logger by the list of records a call
    emits.  Floats are IEEE binary64 values, computed with the Standard
    Library's [SpecFloat] (precision 53, maximal exponent 1024). *)

From Stdlib Require Import ZArith String Ascii List SpecFloat.
From stdpp Require Import base option list gmap strings pretty.

Set Warnings "-register-all".
Local Open Scope Z_scope.
Local Open Scope string_scope.
Local Open Scope list_scope.

(** ** Python values *)

(** What [json.loads] builds: [None], [bool], [int], [float], [str], [list]
    and [dict] with [str] keys.  [JNull] is Python's [None]. *)
Inductive json : Type :=
  | JNull
  | JBool (b : bool)
  | JInt (n : Z)
  | JFloat (f : spec_float)
  | JStr (s : string)
  | JList (l : list json)
  | JDict (d : gmap string json).

(** ** Exceptions *)

(** The classes that the sources raise, catch, or receive from Python,
    aiohttp and Home Assistant.  An exception is modelled by its class: the
    handlers of the sources dispatch on the class only, and the message texts
    are left out. *)
Inductive exc_class : Set :=
  | BaseException
  | Exception
  | CancelledError
  | ArithmeticError
  | OverflowError
  | AttributeError
  | LookupError
  | KeyError
  | TypeError
  | ValueError
  | JSONDecodeError
  | OSError
  | ConnectionError
  | TimeoutError
  | ClientError
  | ClientResponseError
  | ContentTypeError
  | ClientConnectionError
  | ClientOSError
  | ClientConnectorError
  | HomeAssistantError
  | ConfigEntryAuthFailed
  | UpdateFailed
  | FlowError
  | AbortFlow.

#[global] Instance exc_class_eq_dec : EqDecision exc_class.
Proof. solve_decision. Defined.

(** The direct base classes, as the libraries declare them
    ([asyncio.CancelledError] derives from [BaseException] only;
    [aiohttp.ClientOSError] has two bases). *)
Definition bases (c : exc_class) : list exc_class :=
  match c with
  | BaseException => []
  | Exception => [BaseException]
  | CancelledError => [BaseException]
  | ArithmeticError => [Exception]
  | OverflowError => [ArithmeticError]
  | AttributeError => [Exception]
  | LookupError => [Exception]
  | KeyError => [LookupError]
  | TypeError => [Exception]
  | ValueError => [Exception]
  | JSONDecodeError => [ValueError]
  | OSError => [Exception]
  | ConnectionError => [OSError]
  | TimeoutError => [OSError]
  | ClientError => [Exception]
  | ClientResponseError => [ClientError]
  | ContentTypeError => [ClientResponseError]
  | ClientConnectionError => [ClientError]
  | ClientOSError => [ClientConnectionError; OSError]
  | ClientConnectorError => [ClientOSError]
  | HomeAssistantError => [Exception]
  | ConfigEntryAuthFailed => [HomeAssistantError]
  | UpdateFailed => [HomeAssistantError]
  | FlowError => [HomeAssistantError]
  | AbortFlow => [FlowError]
  end.

Fixpoint issubclass_upto (depth : nat) (c d : exc_class) : bool :=
  if decide (c = d) then true
  else match depth with
       | O => false
       | S depth' => existsb (fun b => issubclass_upto depth' b d) (bases c)
       end.

(** [issubclass c d]: the hierarchy above is six classes deep at most. *)
Definition issubclass (c d : exc_class) : bool := issubclass_upto 6 c d.

(** ** Results, logging, and the monad of a call *)

Inductive result (A : Type) : Type :=
  | Ok (a : A)
  | Raise (e : exc_class).
Arguments Ok {A} a.
Arguments Raise {A} e.

Inductive level : Set := DEBUG | INFO | WARNING | ERROR.

(** A log record: the level and the format string of the call
    ([_LOGGER.exception] logs at [ERROR]). *)
Definition log_record : Type := level * string.

(** A call emits log records and then returns or raises. *)
Definition M (A : Type) : Type := list log_record * result A.

Definition M_ret {A} (a : A) : M A := ([], Ok a).

Definition M_bind {A B} (f : A -> M B) (m : M A) : M B :=
  match m with
  | (l, Ok a) => let '(l', r) := f a in (l ++ l', r)
  | (l, Raise e) => (l, Raise e)
  end.

#[global] Instance M_mret : MRet M := @M_ret.
#[global] Instance M_mbind : MBind M := @M_bind.

Definition raise {A} (e : exc_class) : M A := ([], Raise e).
Definition lift {A} (r : result A) : M A := ([], r).
Definition log (lv : level) (msg : string) : M unit := ([(lv, msg)], Ok tt).

Definition logs {A} (m : M A) : list log_record := fst m.
Definition outcome {A} (m : M A) : result A := snd m.

(** One [except] clause: the classes it names and its body. *)
Definition handler (A : Type) : Type := list exc_class * (exc_class -> M A).

Fixpoint find_handler {A} (e : exc_class) (hs : list (handler A))
  : option (exc_class -> M A) :=
  match hs with
  | [] => None
  | (classes, h) :: hs' =>
      if existsb (issubclass e) classes then Some h else find_handler e hs'
  end.

(** [try: body / except ...]: the first clause that names a base class of the
    raised exception runs; with none the exception propagates. *)
Definition try_except {A} (body : M A) (hs : list (handler A)) : M A :=
  match body with
  | (l, Ok a) => (l, Ok a)
  | (l, Raise e) =>
      match find_handler e hs with
      | Some h => let '(l', r) := h e in (l ++ l', r)
      | None => (l, Raise e)
      end
  end.

(** ** Python builtins on these values *)

(** A [str] is modelled by a [string] whose characters are the code points
    below 256; text with other code points is outside the model. *)

(** [str.isspace] on one character: the code points below 256 that Python
    counts as whitespace. *)
Definition is_space (c : ascii) : bool :=
  match N_of_ascii c with
  | 9 | 10 | 11 | 12 | 13 | 28 | 29 | 30 | 31 | 32 | 133 | 160 => true
  | _ => false
  end%N.

(** The whitespace that [float()] drops around its argument: of the
    characters below 128 only tab to carriage return and the space. *)
Definition is_float_space (c : ascii) : bool :=
  match N_of_ascii c with
  | 9 | 10 | 11 | 12 | 13 | 32 | 133 | 160 => true
  | _ => false
  end%N.

Fixpoint lstrip_with (sp : ascii -> bool) (s : string) : string :=
  match s with
  | String c r => if sp c then lstrip_with sp r else s
  | EmptyString => s
  end.

Definition reverse_string (s : string) : string :=
  string_of_list_ascii (rev (list_ascii_of_string s)).

Definition rstrip_with (sp : ascii -> bool) (s : string) : string :=
  reverse_string (lstrip_with sp (reverse_string s)).

Definition strip_with (sp : ascii -> bool) (s : string) : string :=
  rstrip_with sp (lstrip_with sp s).

(** [s.strip()] *)
Definition strip (s : string) : string := strip_with is_space s.

Fixpoint contains_substring (needle hay : string) : bool :=
  String.prefix needle hay
  || match hay with
     | String _ r => contains_substring needle r
     | EmptyString => false
     end.

(** [x == needle] for a [str] needle: only an equal [str] compares equal. *)
Definition eq_str (needle : string) (x : json) : bool :=
  match x with
  | JStr s => String.eqb s needle
  | _ => false
  end.

(** [needle in container], for a [str] needle: key membership on a [dict],
    element membership on a [list], substring on a [str]; [TypeError] on a
    value that is no container. *)
Definition py_contains (needle : string) (container : json) : result bool :=
  match container with
  | JDict d => Ok (match d !! needle with Some _ => true | None => false end)
  | JList l => Ok (existsb (eq_str needle) l)
  | JStr s => Ok (contains_substring needle s)
  | _ => Raise TypeError
  end.

(** [needle not in container] *)
Definition py_not_in (needle : string) (container : json) : result bool :=
  match py_contains needle container with
  | Ok b => Ok (negb b)
  | Raise e => Raise e
  end.

(** [o.get(key, default)]: only a [dict] has the method. *)
Definition py_get (o : json) (key : string) (default : json) : result json :=
  match o with
  | JDict d => Ok (match d !! key with Some v => v | None => default end)
  | _ => Raise AttributeError
  end.

(** [o[key]] for a [str] key. *)
Definition py_getitem (o : json) (key : string) : result json :=
  match o with
  | JDict d => match d !! key with Some v => Ok v | None => Raise KeyError end
  | _ => Raise TypeError
  end.

(** Truth value of [f != 0.0]: a NaN and the infinities are true. *)
Definition float_nonzero (f : spec_float) : bool :=
  match f with
  | S754_zero _ => false
  | _ => true
  end.

(** [bool(v)], the test of [if v:]. *)
Definition py_truthy (v : json) : bool :=
  match v with
  | JNull => false
  | JBool b => b
  | JInt n => negb (Z.eqb n 0)
  | JFloat f => float_nonzero f
  | JStr s => negb (String.eqb s "")
  | JList l => match l with [] => false | _ => true end
  | JDict d => negb (bool_decide (d = ∅))
  end.

(** The text [str(v)].  The characters of the text of a float, a list or a
    dict are not modelled: [StrOf v] stands for them. *)
Inductive text : Type :=
  | Text (s : string)
  | StrOf (v : json).

Definition py_str (v : json) : text :=
  match v with
  | JNull => Text "None"
  | JBool true => Text "True"
  | JBool false => Text "False"
  | JInt n => Text (@pretty Z _ n)
  | JStr s => Text s
  | JFloat _ | JList _ | JDict _ => StrOf v
  end.

(** *** [float()] *)

Definition prec : Z := 53.
Definition emax : Z := 1024.

(** [float(n)] for an [int]: the nearest binary64 value, ties to even;
    [OverflowError] when it is not finite. *)
Definition float_of_int (n : Z) : result spec_float :=
  match binary_normalize prec emax n 0 false with
  | S754_infinity _ => Raise OverflowError
  | f => Ok f
  end.

(** The binary64 value nearest to (-1)^neg * m * 10^e, ties to even; too
    large a magnitude gives an infinity, too small a zero. *)
Definition float_of_decimal (neg : bool) (m : Z) (e : Z) : spec_float :=
  match m with
  | Zpos p =>
      if Z.leb 0 e then binary_round prec emax neg (Z.to_pos (Zpos p * 10 ^ e)) 0
      else SFdiv prec emax (S754_finite neg p 0)
                           (S754_finite false (Z.to_pos (10 ^ (- e))) 0)
  | _ => S754_zero neg
  end.

Definition digit_of_ascii (c : ascii) : option Z :=
  let n := N_of_ascii c in
  if N.leb 48 n && N.leb n 57 then Some (Z.of_N n - 48) else None.

(** The rest of a [digitpart]: digits, each possibly preceded by one
    underscore.  [acc] is the number read so far, [cnt] the count of its
    digits; the unread text is returned. *)
Fixpoint digits_tail (acc cnt : Z) (s : string) : Z * Z * string :=
  match s with
  | String c r =>
      match digit_of_ascii c with
      | Some d => digits_tail (10 * acc + d) (cnt + 1) r
      | None =>
          if Ascii.eqb c "_" then
            match r with
            | String c' r' =>
                match digit_of_ascii c' with
                | Some d' => digits_tail (10 * acc + d') (cnt + 1) r'
                | None => (acc, cnt, s)
                end
            | EmptyString => (acc, cnt, s)
            end
          else (acc, cnt, s)
      end
  | EmptyString => (acc, cnt, s)
  end.

(** [digitpart ::= digit (["_"] digit)*] *)
Definition digitpart (acc : Z) (s : string) : option (Z * Z * string) :=
  match s with
  | String c r =>
      match digit_of_ascii c with
      | Some d => Some (digits_tail (10 * acc + d) 1 r)
      | None => None
      end
  | EmptyString => None
  end.

(** [number ::= [digitpart] "." digitpart | digitpart ["."]]: the digits read
    as one integer, the count of those after the point, and the unread text. *)
Definition number (s : string) : option (Z * Z * string) :=
  match digitpart 0 s with
  | Some (m, _, String "." r) =>
      match digitpart m r with
      | Some (m', k, r') => Some (m', k, r')
      | None => Some (m, 0, r)
      end
  | Some (m, _, r) => Some (m, 0, r)
  | None =>
      match s with
      | String "." r => digitpart 0 r
      | _ => None
      end
  end.

Definition sign (s : string) : bool * string :=
  match s with
  | String "-" r => (true, r)
  | String "+" r => (false, r)
  | _ => (false, s)
  end.

(** [exponent ::= ("e" | "E") [sign] digitpart] *)
Definition exponent (s : string) : option (Z * string) :=
  match s with
  | String c r =>
      if Ascii.eqb c "e" || Ascii.eqb c "E" then
        let '(neg, r1) := sign r in
        match digitpart 0 r1 with
        | Some (e, _, r2) => Some (if neg then - e else e, r2)
        | None => None
        end
      else None
  | EmptyString => None
  end.

(** [floatnumber ::= number [exponent]], to the end of the text: the integer
    of the digits and the power of ten that scales it. *)
Definition floatnumber (s : string) : option (Z * Z) :=
  match number s with
  | Some (m, k, EmptyString) => Some (m, - k)
  | Some (m, k, r) =>
      match exponent r with
      | Some (e, EmptyString) => Some (m, e - k)
      | _ => None
      end
  | None => None
  end.

Definition lower_ascii (c : ascii) : ascii :=
  let n := N_of_ascii c in
  if N.leb 65 n && N.leb n 90 then ascii_of_N (n + 32) else c.

Fixpoint lower (s : string) : string :=
  match s with
  | String c r => String (lower_ascii c) (lower r)
  | EmptyString => EmptyString
  end.

(** [float(s)] for a [str]: surrounding whitespace is dropped, then
    [[sign] (floatnumber | "inf" | "infinity" | "nan")] is read, the words in
    any case; anything else raises [ValueError]. *)
Definition float_of_string (s : string) : result spec_float :=
  let '(neg, r) := sign (strip_with is_float_space s) in
  let w := lower r in
  if String.eqb w "inf" || String.eqb w "infinity" then Ok (S754_infinity neg)
  else if String.eqb w "nan" then Ok S754_nan
  else match floatnumber r with
       | Some (m, e) => Ok (float_of_decimal neg m e)
       | None => Raise ValueError
       end.

(** [float(v)] *)
Definition py_float (v : json) : result spec_float :=
  match v with
  | JFloat f => Ok f
  | JInt n => float_of_int n
  | JBool b => float_of_int (if b then 1 else 0)
  | JStr s => float_of_string s
  | JNull | JList _ | JDict _ => Raise TypeError
  end.

(** [f == n] for a float [f] and an [int] literal [n] of the sources: every
    such literal is a binary64 value, and the comparison is the IEEE one (a
    NaN equals nothing, the two zeros are equal). *)
Definition float_eq_int (f : spec_float) (n : Z) : bool :=
  SFeqb f (binary_normalize prec emax n 0 false).

(** *** [datetime.strptime(text, "%Y/%m/%d %H:%M:%S")] *)

(** [strptime] turns the format into a regular expression, one group per
    directive, matches it at the start of the text, and requires the match to
    end where the text ends.  The groups are alternatives of fixed sequences
    of character classes, tried in order, with backtracking. *)

Definition char_class : Type := ascii -> bool.

(** [\d] *)
Definition digit : char_class := fun c =>
  match digit_of_ascii c with Some _ => true | None => false end.

(** [[lo-hi]] *)
Definition range (lo hi : ascii) : char_class := fun c =>
  N.leb (N_of_ascii lo) (N_of_ascii c) && N.leb (N_of_ascii c) (N_of_ascii hi).

Definition only (a : ascii) : char_class := fun c => Ascii.eqb a c.

(** One alternative against the start of the text: the captured text and
    the unread text. *)
Fixpoint match_seq (ps : list char_class) (s : string)
  : option (string * string) :=
  match ps with
  | [] => Some (EmptyString, s)
  | p :: ps' =>
      match s with
      | String c r =>
          if p c then
            match match_seq ps' r with
            | Some (cap, rest) => Some (String c cap, rest)
            | None => None
            end
          else None
      | EmptyString => None
      end
  end.

Section Regex.
Context {R : Type}.

(** A group [(a1|a2|...)] followed by the rest [k] of the expression: the
    first alternative with which the rest matches. *)
Fixpoint group (alts : list (list char_class))
    (k : string -> string -> option R) (s : string) : option R :=
  match alts with
  | [] => None
  | a :: alts' =>
      match match_seq a s with
      | Some (cap, rest) =>
          match k cap rest with
          | Some r => Some r
          | None => group alts' k s
          end
      | None => group alts' k s
      end
  end.

Definition lit (a : ascii) (k : string -> option R) (s : string) : option R :=
  match s with
  | String c r => if Ascii.eqb a c then k r else None
  | EmptyString => None
  end.

(** [\s*], greedy *)
Fixpoint spaces_star (k : string -> option R) (s : string) : option R :=
  match s with
  | String c r =>
      if is_space c then
        match spaces_star k r with
        | Some x => Some x
        | None => k s
        end
      else k s
  | EmptyString => k s
  end.

(** [\s+], greedy *)
Definition spaces_plus (k : string -> option R) (s : string) : option R :=
  match s with
  | String c r => if is_space c then spaces_star k r else None
  | EmptyString => None
  end.
End Regex.

(** [\d\d\d\d] *)
Definition re_Y : list (list char_class) := [[digit; digit; digit; digit]].
(** [1[0-2]|0[1-9]|[1-9]] *)
Definition re_m : list (list char_class) :=
  [[only "1"; range "0" "2"]; [only "0"; range "1" "9"]; [range "1" "9"]].
(** [3[0-1]|[1-2]\d|0[1-9]|[1-9]| [1-9]] *)
Definition re_d : list (list char_class) :=
  [[only "3"; range "0" "1"]; [range "1" "2"; digit]; [only "0"; range "1" "9"];
   [range "1" "9"]; [only " "; range "1" "9"]].
(** [2[0-3]|[0-1]\d|\d] *)
Definition re_H : list (list char_class) :=
  [[only "2"; range "0" "3"]; [range "0" "1"; digit]; [digit]].
(** [[0-5]\d|\d] *)
Definition re_M : list (list char_class) := [[range "0" "5"; digit]; [digit]].
(** [6[0-1]|[0-5]\d|\d] *)
Definition re_S : list (list char_class) :=
  [[only "6"; range "0" "1"]; [range "0" "5"; digit]; [digit]].

(** The expression of ["%Y/%m/%d %H:%M:%S"] (the blank of the format matches
    [\s+]): the six captured texts and the text after the match. *)
Definition format_regex (s : string)
  : option (string * string * string * string * string * string * string) :=
  group re_Y (fun Y => lit "/" (
  group re_m (fun m => lit "/" (
  group re_d (fun d => spaces_plus (
  group re_H (fun H => lit ":" (
  group re_M (fun Mi => lit ":" (
  group re_S (fun Se rest => Some (Y, m, d, H, Mi, Se, rest)))))))))))) s.

(** [int(text)] of a captured group: digits, and for the day possibly a
    blank before the digit, which [int] ignores. *)
Fixpoint int_acc (acc : Z) (s : string) : Z :=
  match s with
  | String c r =>
      match digit_of_ascii c with
      | Some d => int_acc (10 * acc + d) r
      | None => int_acc acc r
      end
  | EmptyString => acc
  end.

Definition py_int (s : string) : Z := int_acc 0 s.

Record datetime : Set := mk_datetime {
  year : Z; month : Z; day : Z; hour : Z; minute : Z; second : Z
}.

Definition is_leap (y : Z) : bool :=
  Z.eqb (y mod 4) 0 && (negb (Z.eqb (y mod 100) 0) || Z.eqb (y mod 400) 0).

Definition days_in_month (y m : Z) : Z :=
  match m with
  | 2 => if is_leap y then 29 else 28
  | 4 | 6 | 9 | 11 => 30
  | _ => 31
  end.

(** The checks of the [date] and [datetime] constructors. *)
Definition valid_datetime (dt : datetime) : bool :=
  Z.leb 1 (year dt) && Z.leb (year dt) 9999
  && Z.leb 1 (month dt) && Z.leb (month dt) 12
  && Z.leb 1 (day dt) && Z.leb (day dt) (days_in_month (year dt) (month dt))
  && Z.leb 0 (hour dt) && Z.leb (hour dt) 23
  && Z.leb 0 (minute dt) && Z.leb (minute dt) 59
  && Z.leb 0 (second dt) && Z.leb (second dt) 59.

(** [datetime.strptime(s, "%Y/%m/%d %H:%M:%S")]: every failure is a
    [ValueError] (no match, text left over, or a field out of range). *)
Definition strptime (s : string) : result datetime :=
  match format_regex s with
  | Some (Y, m, d, H, Mi, Se, EmptyString) =>
      let dt := mk_datetime (py_int Y) (py_int m) (py_int d)
                            (py_int H) (py_int Mi) (py_int Se) in
      if valid_datetime dt then Ok dt else Raise ValueError
  | _ => Raise ValueError
  end.

(** A datetime with a time zone: [dt_util.as_local] attaches the host's
    configured local zone to a naive datetime and keeps its wall-clock
    fields. *)
Inductive aware_datetime : Set :=
  | Local (wall : datetime).

Definition as_local (naive : datetime) : aware_datetime := Local naive.

(** *** [int()] and the text of an [int] *)

(** [sys.get_int_max_str_digits()]: the most digits that [int(str)] reads
    and [str(int)] writes. *)
Definition MAX_STR_DIGITS : Z := 4300.

(** [int(s)] for a [str], base ten: surrounding whitespace is dropped, then
    [[sign] digitpart] is read to the end; [ValueError] on anything else and
    on more than [MAX_STR_DIGITS] digits. *)
Definition int_of_string (s : string) : result Z :=
  let '(neg, r) := sign (strip_with is_float_space s) in
  match digitpart 0 r with
  | Some (n, cnt, EmptyString) =>
      if Z.ltb MAX_STR_DIGITS cnt then Raise ValueError
      else Ok (if neg then - n else n)
  | _ => Raise ValueError
  end.

(** [int(f)] for a float: the integer part, towards zero; a NaN raises
    [ValueError], an infinity [OverflowError]. *)
Definition int_of_float (f : spec_float) : result Z :=
  match f with
  | S754_zero _ => Ok 0
  | S754_infinity _ => Raise OverflowError
  | S754_nan => Raise ValueError
  | S754_finite neg m e =>
      let magnitude := if Z.leb 0 e then Zpos m * 2 ^ e else Zpos m / 2 ^ (- e) in
      Ok (if neg then - magnitude else magnitude)
  end.

(** [int(v)] *)
Definition int_of_json (v : json) : result Z :=
  match v with
  | JInt n => Ok n
  | JBool b => Ok (if b then 1 else 0)
  | JFloat f => int_of_float f
  | JStr s => int_of_string s
  | JNull | JList _ | JDict _ => Raise TypeError
  end.

(** [str(n)] for an [int]: [ValueError] when the text would have more than
    [MAX_STR_DIGITS] digits. *)
Definition str_of_int (n : Z) : result string :=
  if Z.leb (10 ^ MAX_STR_DIGITS) (Z.abs n) then Raise ValueError
  else Ok (@pretty Z _ n).

(** The text of [v] inside an f-string, [str(v)]. *)
Definition format_value (v : json) : result text :=
  match v with
  | JInt n =>
      match str_of_int n with
      | Ok s => Ok (Text s)
      | Raise e => Raise e
      end
  | _ => Ok (py_str v)
  end.

(** ** const.py *)

(** The unit constants of [homeassistant.const] that the table names.  Each
    is a [str] there (a plain string or a member of a string enumeration),
    and no two are equal. *)
Inductive unit_of_measurement : Set :=
  | FAHRENHEIT
  | PERCENTAGE
  | MILES_PER_HOUR
  | INHG
  | INCHES
  | DEGREE
  | INCHES_PER_HOUR
  | WATTS_PER_SQUARE_METER.

#[global] Instance unit_of_measurement_eq_dec : EqDecision unit_of_measurement.
Proof. solve_decision. Defined.

Definition DOMAIN : string := "vantage_weather".
Definition DEFAULT_NAME : string := "Vantage Weather".
Definition DEFAULT_SCAN_INTERVAL : Z := 60.




Definition DEVICE_FIRMWARE_VER_KEY : string := "ver".
Definition DEVICE_MODEL_KEY : string := "stnmod".
Definition DEVICE_STATION_NAME_KEY : string := "stnname".
Definition DEVICE_WIFI_LOGGER_ID_KEY : string := "wid".

Definition DEVICE_UNIT_TEMP : string := "unitT".
Definition DEVICE_UNIT_WIND : string := "unitW".
Definition DEVICE_UNIT_PRESSURE : string := "unitB".
Definition DEVICE_UNIT_RAIN : string := "unitR".

(** ** The HTTP exchange *)

(** What the station answers: the status code, and what
    [await response.json()] gives (the decoded body, or the exception of a
    body that is not JSON). *)
Record response : Type := mk_response {
  status : Z;
  json_result : result json
}.

(** One [session.get(url, headers=...)] under [async_timeout.timeout(10)]:
    it raises (no connection, a client error, the deadline) or a response
    arrives. *)
Inductive exchange : Type :=
  | GetRaises (e : exc_class)
  | GetResponse (r : response).

Definition session_get (x : exchange) : result response :=
  match x with
  | GetRaises e => Raise e
  | GetResponse r => Ok r
  end.

(** [response.raise_for_status()]: [ClientResponseError] from status 400 on. *)
Definition raise_for_status (r : response) : result unit :=
  if Z.leb 400 (status r) then Raise ClientResponseError else Ok tt.

(** ** coordinator.py *)

Record VantageWeatherDataUpdateCoordinator : Type := mk_coordinator {
  host : string;
  api_url : string;
  device_name : string;
  update_interval : Z;
  (** the two attributes the base class [DataUpdateCoordinator] keeps *)
  data : json;
  last_update_success : bool
}.

(** [__init__]: the base class starts with no data and the success flag set. *)
Definition coordinator_init (host name : string) (update_interval : Z)
  : VantageWeatherDataUpdateCoordinator :=
  {| host := host;
     api_url := "http://" +:+ host +:+ "/webrtd.json";
     device_name := name;
     update_interval := update_interval;
     data := JNull;
     last_update_success := true |}.



(** [_async_update_data], on the exchange that the request to
    [self.api_url] turns out to be.  The arguments of the last debug call
    are evaluated whatever the log level. *)
Definition _async_update_data (self : VantageWeatherDataUpdateCoordinator)
    (x : exchange) : M json :=
  try_except
    (response ← lift (session_get x);
     if Z.eqb (status response) 401 then raise ConfigEntryAuthFailed
     else
       _ ← lift (raise_for_status response);
       data ← lift (json_result response);
       _ ← log DEBUG "Successfully fetched data: %s";
       no_rtd ← lift (py_not_in "rtd" data);
       missing ← (if no_rtd : bool then mret true
                  else lift (py_not_in "info" data));
       if missing : bool then
         _ ← log ERROR "Missing 'rtd' or 'info' in JSON response: %s";
         raise UpdateFailed
       else
         info ← lift (py_get data "info" (JDict ∅));
         _ ← lift (py_get info DEVICE_UNIT_TEMP JNull);
         info ← lift (py_get data "info" (JDict ∅));
         _ ← lift (py_get info DEVICE_UNIT_WIND JNull);
         info ← lift (py_get data "info" (JDict ∅));
         _ ← lift (py_get info DEVICE_UNIT_PRESSURE JNull);
         info ← lift (py_get data "info" (JDict ∅));
         _ ← lift (py_get info DEVICE_UNIT_RAIN JNull);
         _ ← log DEBUG "Device reported units: Temp=%s, Wind=%s, Pressure=%s, Rain=%s";
         mret data)
    [ ([ClientConnectorError], fun err =>
         _ ← log ERROR "Error connecting to device at %s: %s";
         raise UpdateFailed);
      ([ClientError], fun err =>
         _ ← log ERROR "Client error fetching data from %s: %s";
         raise UpdateFailed);
      ([TimeoutError], fun err =>
         _ ← log ERROR "Timeout fetching data from %s";
         raise UpdateFailed);
      ([Exception], fun err =>
         _ ← log ERROR "Unexpected error fetching data from %s: %s";
         raise UpdateFailed) ].

(** Modelled from the spec: one refresh cycle of the host's
    [DataUpdateCoordinator], the base class, which is not under src/.  It
    awaits [_async_update_data]; a returned payload replaces the cached one
    and sets the health flag, an exception leaves the cached payload as it is
    and clears the flag ("retained (stale)", "downgrade the coordinator's
    health flag"). *)
Definition async_refresh (self : VantageWeatherDataUpdateCoordinator)
    (x : exchange) : VantageWeatherDataUpdateCoordinator :=
  match outcome (_async_update_data self x) with
  | Ok payload =>
      {| host := host self; api_url := api_url self;
         device_name := device_name self;
         update_interval := update_interval self;
         data := payload; last_update_success := true |}
  | Raise _ =>
      {| host := host self; api_url := api_url self;
         device_name := device_name self;
         update_interval := update_interval self;
         data := data self; last_update_success := false |}
  end.

(** The coordinator after the refreshes of a run, oldest first. *)
Definition refreshes (self : VantageWeatherDataUpdateCoordinator)
    (xs : list exchange) : VantageWeatherDataUpdateCoordinator :=
  fold_left async_refresh xs self.

(** ** sensor.py *)

(** The members of the host's [SensorDeviceClass] that the integration
    names. *)
Inductive SensorDeviceClass : Set :=
  | TEMPERATURE
  | HUMIDITY
  | PRESSURE
  | WIND_SPEED
  | PRECIPITATION
  | PRECIPITATION_INTENSITY
  | IRRADIANCE
  | TIMESTAMP.

#[global] Instance SensorDeviceClass_eq_dec : EqDecision SensorDeviceClass.
Proof. solve_decision. Defined.

Inductive SensorStateClass : Set :=
  | MEASUREMENT
  | TOTAL
  | TOTAL_INCREASING.

(** [SensorDeviceClass(value)]: the member with that value; [ValueError] on
    a string that is none of the values above (the table has no other). *)
Definition SensorDeviceClass_of_value (v : string) : result SensorDeviceClass :=
  if String.eqb v "temperature" then Ok TEMPERATURE
  else if String.eqb v "humidity" then Ok HUMIDITY
  else if String.eqb v "pressure" then Ok PRESSURE
  else if String.eqb v "wind_speed" then Ok WIND_SPEED
  else if String.eqb v "precipitation" then Ok PRECIPITATION
  else if String.eqb v "precipitation_intensity" then Ok PRECIPITATION_INTENSITY
  else if String.eqb v "irradiance" then Ok IRRADIANCE
  else if String.eqb v "timestamp" then Ok TIMESTAMP
  else Raise ValueError.

Definition SensorStateClass_of_value (v : string) : result SensorStateClass :=
  if String.eqb v "measurement" then Ok MEASUREMENT
  else if String.eqb v "total" then Ok TOTAL
  else if String.eqb v "total_increasing" then Ok TOTAL_INCREASING
  else Raise ValueError.

(** [REVISED_UNIT_MAPPING = {}] *)
Definition REVISED_UNIT_MAPPING (u : unit_of_measurement)
  : option unit_of_measurement := None.

(** [VantageWeatherBaseSensor.available]:
    [super().available and self.coordinator.data is not None
     and "rtd" in self.coordinator.data], where [super().available] is the
    host's [CoordinatorEntity.available], the coordinator's
    [last_update_success]. *)
Definition available (coordinator : VantageWeatherDataUpdateCoordinator)
  : result bool :=
  if negb (last_update_success coordinator) then Ok false
  else match data coordinator with
       | JNull => Ok false
       | payload => py_contains "rtd" payload
       end.

(** The attributes of a [VantageWeatherStandardSensor]. *)
Record VantageWeatherStandardSensor : Type := mk_standard_sensor {
  _config_entry_id : string;
  _sensor_base_key : string;
  _attr_name : string;
  _attr_unique_id : string;
  _json_data_key : string;
  _attr_native_unit_of_measurement : option unit_of_measurement;
  _attr_icon : option string;
  _attr_device_class : option SensorDeviceClass;
  _attr_state_class : option SensorStateClass
}.

(** [VantageWeatherStandardSensor.__init__] (its log calls left out).  Every
    unit constant is a [str], so a unit goes through the mapping, which is
    empty, and is assigned as it is. *)
Definition standard_sensor_init (name_suffix json_data_key sensor_base_key : string)
    (unit_constant_or_string : option unit_of_measurement)
    (device_class_str state_class_str icon_override : option string)
    (config_entry_id : string) : VantageWeatherStandardSensor :=
  let unit0 :=
    match unit_constant_or_string with
    | Some u =>
        match REVISED_UNIT_MAPPING u with
        | Some mapped_unit => Some mapped_unit
        | None => Some u
        end
    | None => None
    end in
  let unit1 :=
    match device_class_str, unit_constant_or_string with
    | Some dc, None =>
        if String.eqb dc "precipitation_intensity" then Some INCHES_PER_HOUR
        else unit0
    | _, _ => unit0
    end in
  let device_class :=
    match device_class_str with
    | Some dc =>
        if String.eqb dc "" then None
        else match SensorDeviceClass_of_value dc with
             | Ok c => Some c
             | Raise _ => None
             end
    | None => None
    end in
  let state_class :=
    match state_class_str with
    | Some sc =>
        if String.eqb sc "" then None
        else match SensorStateClass_of_value sc with
             | Ok c => Some c
             | Raise _ => None
             end
    | None => None
    end in
  {| _config_entry_id := config_entry_id;
     _sensor_base_key := sensor_base_key;
     _attr_name := name_suffix;
     _attr_unique_id := config_entry_id +:+ "_" +:+ sensor_base_key;
     _json_data_key := json_data_key;
     _attr_native_unit_of_measurement := unit1;
     _attr_icon := icon_override;
     _attr_device_class := device_class;
     _attr_state_class := state_class |}.


Definition is_str (v : json) : bool :=
  match v with JStr _ => true | _ => false end.

(** [value.strip() == "---" or value.strip() == ""] for a [str] value *)
Definition is_placeholder (v : json) : bool :=
  match v with
  | JStr s => String.eqb (strip s) "---" || String.eqb (strip s) ""
  | _ => false
  end.

Definition is_numeric_conversion_needed (self : VantageWeatherStandardSensor)
  : bool :=
  match _attr_device_class self with
  | Some c =>
      bool_decide (c ∈ [TEMPERATURE; HUMIDITY; PRESSURE; WIND_SPEED;
                        PRECIPITATION; PRECIPITATION_INTENSITY; IRRADIANCE])
  | None => false
  end
  || (bool_decide (_attr_native_unit_of_measurement self = Some DEGREE)
      && bool_decide (_attr_device_class self = None))
  || (String.eqb (_sensor_base_key self) "uv"
      && bool_decide (_attr_native_unit_of_measurement self = None)).

(** [VantageWeatherStandardSensor.native_value]; [JNull] is [None]. *)
Definition standard_native_value (self : VantageWeatherStandardSensor)
    (coordinator : VantageWeatherDataUpdateCoordinator) : M json :=
  is_avail ← lift (available coordinator);
  if negb is_avail then mret JNull
  else
    rtd_data ← lift (py_get (data coordinator) "rtd" (JDict ∅));
    absent ← lift (py_not_in (_json_data_key self) rtd_data);
    if absent : bool then
      _ ← log DEBUG "Sensor '%s': JSON key '%s' not found in rtd data.";
      mret JNull
    else
      value ← lift (py_getitem rtd_data (_json_data_key self));
      match value with
      | JNull => mret JNull
      | _ =>
          if is_str value && is_placeholder value then
            _ ← log DEBUG "Sensor '%s': Received '---' or empty string, treating as None.";
            mret JNull
          else if is_numeric_conversion_needed self then
            try_except
              (f ← lift (py_float value); mret (JFloat f))
              [ ([ValueError; TypeError], fun _ =>
                   _ ← log WARNING "Sensor '%s': Could not convert value '%s' (type: %s) to float.";
                   mret JNull) ]
          else mret value
      end.

(** The attributes of the [VantageWeatherBaroTrendSensor] that its
    [native_value] reads or writes. *)
Record VantageWeatherBaroTrendSensor : Type := mk_baro_trend_sensor {
  baro_icon : string
}.

Definition baro_trend_sensor_init : VantageWeatherBaroTrendSensor :=
  {| baro_icon := "mdi:chart-line" |}.

(** [VantageWeatherBaroTrendSensor.native_value]: the sensor with the icon
    the call leaves, and the value. *)
Definition baro_trend_native_value (self : VantageWeatherBaroTrendSensor)
    (coordinator : VantageWeatherDataUpdateCoordinator)
  : M (VantageWeatherBaroTrendSensor * json) :=
  is_avail ← lift (available coordinator);
  if negb is_avail then mret (self, JNull)
  else
    rtd_data ← lift (py_get (data coordinator) "rtd" (JDict ∅));
    absent ← lift (py_not_in "bartr" rtd_data);
    if absent : bool then
      _ ← log DEBUG "BaroTrendSensor: 'bartr' key not found in rtd data.";
      mret (self, JNull)
    else
      trend_code_str ← lift (py_getitem rtd_data "bartr");
      converted ←
        try_except
          (trend_code ← lift (py_float trend_code_str); mret (Some trend_code))
          [ ([ValueError; TypeError], fun _ =>
               _ ← log WARNING "BaroTrendSensor: 'bartr' value '%s' is not numeric.";
               mret None) ];
      match converted with
      | None => mret ({| baro_icon := "mdi:help-circle-outline" |}, JStr "Unknown")
      | Some trend_code =>
          if float_eq_int trend_code (-60) then
            mret ({| baro_icon := "mdi:trending-down" |}, JStr "Falling Rapidly")
          else if float_eq_int trend_code (-20) then
            mret ({| baro_icon := "mdi:trending-down" |}, JStr "Falling Slowly")
          else if float_eq_int trend_code 0 then
            mret ({| baro_icon := "mdi:trending-neutral" |}, JStr "Steady")
          else if float_eq_int trend_code 20 then
            mret ({| baro_icon := "mdi:trending-up" |}, JStr "Rising Slowly")
          else if float_eq_int trend_code 60 then
            mret ({| baro_icon := "mdi:trending-up" |}, JStr "Rising Rapidly")
          else
            _ ← log INFO "BaroTrendSensor: Unknown trend_code '%s'.";
            mret ({| baro_icon := "mdi:help-circle-outline" |}, JStr "---")
      end.

(** The text of [f"{a} {b}"].  A text that holds the unmodelled text of a
    float, a list or a dict stays unmodelled. *)
Definition join_blank (a b : text) : text :=
  match a, b with
  | Text x, Text y => Text (x +:+ " " +:+ y)
  | StrOf v, _ => StrOf v
  | _, StrOf v => StrOf v
  end.

(** [datetime.strptime] on a text.  The text of a float holds one of
    [.], [e], [n], that of a list [[], that of a dict [{], none of which the
    expression of the format matches, and the text of the values around it
    in [join_blank] either precedes the first blank or follows the last one:
    a text with an unmodelled part never matches. *)
Definition strptime_text (t : text) : result datetime :=
  match t with
  | Text s => strptime s
  | StrOf _ => Raise ValueError
  end.

(** [VantageWeatherLastUpdateSensor.native_value] *)
Definition last_update_native_value
    (coordinator : VantageWeatherDataUpdateCoordinator)
  : M (option aware_datetime) :=
  is_avail ← lift (available coordinator);
  if negb is_avail then mret None
  else
    rtd_data ← lift (py_get (data coordinator) "rtd" (JDict ∅));
    date_str ← lift (py_get rtd_data "date" JNull);
    time_str ← lift (py_get rtd_data "time" JNull);
    if py_truthy date_str && py_truthy time_str then
      try_except
        (naive_dt ← lift (strptime_text
                            (join_blank (py_str date_str) (py_str time_str)));
         mret (Some (as_local naive_dt)))
        [ ([ValueError], fun _ =>
             _ ← log ERROR "LastUpdateSensor: Could not parse date/time: date='%s', time='%s'.";
             mret None) ]
    else
      _ ← log DEBUG "LastUpdateSensor: Date ('%s') or time ('%s') not found.";
      mret None.

(** The model names of [device_info], by station model code. *)
Definition models : list (Z * string) :=
  [(0, "Wizard III"); (1, "Wizard II"); (2, "Monitor"); (3, "Perception");
   (4, "GroWeather"); (5, "Energy Enviromonitor"); (6, "Health Enviromonitor");
   (16, "Vantage Pro/Pro2"); (17, "Vantage Vue")].

(** [models.get(code)] *)
Definition models_get (code : Z) : option string :=
  match List.find (fun entry => Z.eqb (fst entry) code) models with
  | Some entry => Some (snd entry)
  | None => None
  end.

(** The dict that [device_info] returns.  The model name is the list of the
    pieces of its f-string. *)
Record DeviceInfo : Type := mk_device_info {
  identifiers : string * string;
  name : string;
  manufacturer : string;
  model : list text;
  sw_version : json;
  configuration_url : string
}.

(** [VantageWeatherBaseSensor.device_info].  The default of [models.get] is
    an f-string, built whether or not the code is in the table. *)
Definition device_info (config_entry_id : string)
    (coordinator : VantageWeatherDataUpdateCoordinator) : M DeviceInfo :=
  info_data ← lift (if py_truthy (data coordinator)
                    then py_get (data coordinator) "info" (JDict ∅)
                    else Ok (JDict ∅));
  model_code_str ← lift (py_get info_data DEVICE_MODEL_KEY JNull);
  model_name ←
    match model_code_str with
    | JNull => mret [Text "Unknown Model"]
    | _ =>
        try_except
          (model_code ← lift (int_of_json model_code_str);
           shown ← lift (str_of_int model_code);
           mret (match models_get model_code with
                 | Some known => [Text known]
                 | None => [Text "Unknown Model Code ("; Text shown; Text ")"]
                 end))
          [ ([ValueError], fun _ =>
               shown ← lift (format_value model_code_str);
               mret [Text "Invalid Model Code ("; shown; Text ")"]) ]
    end;
  sw_version ← lift (py_get info_data DEVICE_FIRMWARE_VER_KEY JNull);
  mret {| identifiers := (DOMAIN, config_entry_id);
          name := device_name coordinator;
          manufacturer := "Davis Instruments (Assumed for Vantage)";
          model := model_name;
          sw_version := sw_version;
          configuration_url := "http://" +:+ host coordinator |}.




(** ** config_flow.py *)

(** [validate_host_connection], on the exchange that the request turns out
    to be: the [device_info] dict, or [ConnectionError]. *)
Definition validate_host_connection (host : string) (x : exchange)
  : M (gmap string text) :=
  try_except
    (_ ← log DEBUG "Attempting to connect to %s";
     response ← lift (session_get x);
     _ ← lift (raise_for_status response);
     data ← lift (json_result response);
     _ ← log DEBUG "Successfully connected and received data: %s";
     info_data ← lift (py_get data "info" (JDict ∅));
     unique_id_val ← lift (py_get info_data DEVICE_WIFI_LOGGER_ID_KEY JNull);
     device_info ←
       (if py_truthy unique_id_val then
          mret (<["unique_id" := py_str unique_id_val]> (∅ : gmap string text))
        else
          _ ← log WARNING "WID not found in device info, using host for unique_id: %s";
          mret (<["unique_id" := Text ("vantage_weather_" +:+ host)]> ∅));
     title_val ← lift (py_get info_data DEVICE_STATION_NAME_KEY JNull);
     device_info ←
       (if py_truthy title_val then
          mret (<["title" := py_str title_val]> device_info)
        else
          _ ← log DEBUG "Station name not found, using host for title: %s";
          mret (<["title" := Text host]> device_info));
     mret device_info)
    [ ([ClientConnectorError; TimeoutError], fun ex =>
         _ ← log ERROR "Failed to connect to %s: %s";
         raise ConnectionError);
      ([ClientResponseError], fun ex =>
         _ ← log ERROR "HTTP error connecting to %s: %s (status: %s)";
         raise ConnectionError);
      ([ContentTypeError], fun ex =>
         _ ← log ERROR "Invalid content type received from %s: %s. Expected JSON.";
         raise ConnectionError);
      ([Exception], fun ex =>
         _ ← log ERROR "Unexpected exception validating host %s: %s";
         raise ConnectionError) ].





(** ** The words of the specification *)

(** The payload is a JSON object with the key [key]. *)
Definition has_group (key : string) (payload : json) : bool :=
  match payload with
  | JDict d => match d !! key with Some _ => true | None => false end
  | _ => false
  end.

(** The payload is a JSON object whose group [key] is there and is itself
    an object. *)
Definition has_object (key : string) (payload : json) : bool :=
  match payload with
  | JDict d => match d !! key with Some (JDict _) => true | _ => false end
  | _ => false
  end.

(** A fully validated payload: both groups are there, both objects. *)
Definition complete_payload (payload : json) : bool :=
  has_object "rtd" payload && has_object "info" payload.

(** What a refresh checks of a payload: the "rtd" key is there, whatever is
    under it, and the "info" group is an object. *)
Definition checked_payload (payload : json) : bool :=
  has_group "rtd" payload && has_object "info" payload.

(** The trend codes and their labels. *)
Definition trend_table : list (Z * string) :=
  [(-60, "Falling Rapidly"); (-20, "Falling Slowly"); (0, "Steady");
   (20, "Rising Slowly"); (60, "Rising Rapidly")].

(** Exact-match decoding of a trend code: the label of the code the number
    equals, ["---"] when it equals none. *)
Definition decode_trend (code : spec_float) : string :=
  match List.find (fun entry => float_eq_int code (fst entry)) trend_table with
  | Some entry => snd entry
  | None => "---"
  end.

(** The categories that need a number, and the two fields that do. *)
Definition numeric_category (c : SensorDeviceClass) : Prop :=
  c = TEMPERATURE \/ c = HUMIDITY \/ c = PRESSURE \/ c = WIND_SPEED
  \/ c = PRECIPITATION \/ c = PRECIPITATION_INTENSITY \/ c = IRRADIANCE.

Definition needs_number (s : VantageWeatherStandardSensor) : Prop :=
  (exists c, _attr_device_class s = Some c /\ numeric_category c)
  \/ (_attr_native_unit_of_measurement s = Some DEGREE
      /\ _attr_device_class s = None)
  \/ (_sensor_base_key s = "uv" /\ _attr_native_unit_of_measurement s = None).

(** A raw value that stands for "no reading": absent, null, or a string that
    is ["---"] or blank once trimmed. *)
Definition no_reading (raw : option json) : Prop :=
  match raw with
  | None => True
  | Some JNull => True
  | Some (JStr s) => strip s = "---" \/ strip s = ""
  | Some _ => False
  end.

(** Decimal digits of a number below ten thousand, with leading zeros. *)
Definition digit_char (d : Z) : ascii :=
  ascii_of_N (48 + Z.to_N d).

Definition two_digits (n : Z) : string :=
  String (digit_char (n / 10)) (String (digit_char (n mod 10)) EmptyString).

Definition four_digits (n : Z) : string :=
  String (digit_char (n / 1000))
    (String (digit_char (n / 100 mod 10)) (two_digits (n mod 100))).

(** [YYYY/MM/DD] *)
Definition date_text (dt : datetime) : string :=
  four_digits (year dt) +:+ "/" +:+ two_digits (month dt)
  +:+ "/" +:+ two_digits (day dt).

(** [HH:MM:SS] *)
Definition time_text (dt : datetime) : string :=
  two_digits (hour dt) +:+ ":" +:+ two_digits (minute dt)
  +:+ ":" +:+ two_digits (second dt).

(** The value of a call that also returns the sensor it leaves. *)
Definition returned_value {S A} (m : M (S * A)) : result A :=
  match outcome m with
  | Ok (_, v) => Ok v
  | Raise e => Raise e
  end.

(** A component of the rtd group, null when the key is missing. *)
Definition component (rtd : gmap string json) (key : string) : json :=
  match rtd !! key with
  | Some v => v
  | None => JNull
  end.

(** The device info that host validation derives from the info group: the
    logger id and the station name, each with its fallback. *)
Definition device_info_of (host : string) (info : gmap string json)
  : gmap string text :=
  <["title" := if py_truthy (component info DEVICE_STATION_NAME_KEY)
               then py_str (component info DEVICE_STATION_NAME_KEY)
               else Text host]>
  (<["unique_id" := if py_truthy (component info DEVICE_WIFI_LOGGER_ID_KEY)
                    then py_str (component info DEVICE_WIFI_LOGGER_ID_KEY)
                    else Text ("vantage_weather_" +:+ host)]> ∅).


(** What a failure is reported as: [UpdateFailed], the transient failure,
    for every [Exception]. *)
Definition classified (e : exc_class) : exc_class :=
  if issubclass e Exception then UpdateFailed else e.

(** The outcome of a fetch, case by case: the payload when the status is
    below 400 and the body is an object with both groups, [info] an object;
    a failure otherwise. *)
Definition fetch_outcome (x : exchange) : result json :=
  match x with
  | GetRaises e => Raise (classified e)
  | GetResponse r =>
      if Z.eqb (status r) 401 then Raise UpdateFailed
      else if Z.leb 400 (status r) then Raise UpdateFailed
      else match json_result r with
           | Raise e => Raise (classified e)
           | Ok (JDict d) =>
               match d !! "rtd", d !! "info" with
               | Some _, Some (JDict _) => Ok (JDict d)
               | _, _ => Raise UpdateFailed
               end
           | Ok _ => Raise UpdateFailed
           end
  end.

(** What a failure of host validation is reported as: [ConnectionError],
    for every [Exception]. *)
Definition refused (e : exc_class) : exc_class :=
  if issubclass e Exception then ConnectionError else e.

(** The outcome of host validation, case by case. *)
Definition validation_outcome (host : string) (x : exchange)
  : result (gmap string text) :=
  match x with
  | GetRaises e => Raise (refused e)
  | GetResponse r =>
      if Z.leb 400 (status r) then Raise ConnectionError
      else match json_result r with
           | Raise e => Raise (refused e)
           | Ok (JDict d) =>
               match d !! "info" with
               | None => Ok (device_info_of host ∅)
               | Some (JDict info) => Ok (device_info_of host info)
               | Some _ => Raise ConnectionError
               end
           | Ok _ => Raise ConnectionError
           end
  end.

(** ** Sample stations *)

Definition sample_rtd : gmap string json :=
  <["bartr" := JStr "20"]> (<["tempout" := JStr "72.5"]>
  (<["date" := JStr "2024/03/05"]> (<["time" := JStr "14:30:00"]>
  (<["winddir" := JStr "---"]> (<["humout" := JStr "n/a"]> ∅))))).

Definition sample_body : gmap string json :=
  <["rtd" := JDict sample_rtd]> (<["info" := JDict ∅]> ∅).

Definition sample_payload : json := JDict sample_body.

Definition sample_coordinator : VantageWeatherDataUpdateCoordinator :=
  coordinator_init "192.168.1.20" DEFAULT_NAME DEFAULT_SCAN_INTERVAL.

(** A response with status 200 and the body [body]. *)
Definition answer (body : json) : exchange :=
  GetResponse (mk_response 200 (Ok body)).

(** The sample station after one good refresh. *)
Definition fresh_coordinator : VantageWeatherDataUpdateCoordinator :=
  async_refresh sample_coordinator (answer sample_payload).

(** The sensors of two rows of the table. *)
Definition tempout_sensor : VantageWeatherStandardSensor :=
  standard_sensor_init "Outside Temperature" "tempout" "tempout"
    (Some FAHRENHEIT) (Some "temperature") (Some "measurement") None "entry".

Definition winddir_sensor : VantageWeatherStandardSensor :=
  standard_sensor_init "Current Wind Direction" "winddir" "winddir"
    (Some DEGREE) None (Some "measurement") (Some "mdi:compass-outline") "entry".


(** A station whose info group names a Vantage Vue, after one refresh. *)
Definition vue_info : gmap string json :=
  <["stnmod" := JStr "17"]> (<["ver" := JStr "1.2.3"]> ∅).

Definition vue_body : gmap string json :=
  <["rtd" := JDict ∅]> (<["info" := JDict vue_info]> ∅).


(** A body whose "rtd" is null. *)
Definition null_rtd_payload : json :=
  JDict (<["rtd" := JNull]> (<["info" := JDict ∅]> ∅)).

(** The sample station after a good refresh and then a timeout. *)
Definition stale_coordinator : VantageWeatherDataUpdateCoordinator :=
  refreshes sample_coordinator [answer sample_payload; GetRaises TimeoutError].

(** ** Facts about the exception classes and the monad *)

Lemma issubclass_refl (c : exc_class) : issubclass c c = true.
Proof. destruct c; reflexivity. Qed.

(** Every class but [BaseException] and [CancelledError] is an
    [Exception]. *)
Lemma issubclass_Exception (c : exc_class) :
  issubclass c Exception = negb (bool_decide (c = BaseException \/ c = CancelledError)).
Proof. destruct c; vm_compute; reflexivity. Qed.

Lemma outcome_lift {A} (r : result A) : outcome (lift r) = r.
Proof. reflexivity. Qed.

Lemma outcome_bind {A B} (m : M A) (f : A -> M B) :
  outcome (m ≫= f) =
  match outcome m with
  | Ok a => outcome (f a)
  | Raise e => Raise e
  end.
Proof.
  destruct m as [l [a | e]]; simpl; [| reflexivity].
  unfold mbind, M_mbind, M_bind, outcome. destruct (f a). reflexivity.
Qed.

Lemma outcome_try_except {A} (body : M A) (hs : list (handler A)) :
  outcome (try_except body hs) =
  match outcome body with
  | Ok a => Ok a
  | Raise e =>
      match find_handler e hs with
      | Some h => outcome (h e)
      | None => Raise e
      end
  end.
Proof.
  destruct body as [l [a | e]]; simpl; [reflexivity |].
  destruct (find_handler e hs) as [h |]; [| reflexivity].
  unfold outcome. destruct (h e). reflexivity.
Qed.

Ltac run_call :=
  unfold mbind, mret, M_mbind, M_mret, M_bind, M_ret, lift, raise, log,
    outcome, logs, try_except; cbn.

(** ** The coordinator *)

(** [_async_update_data] returns or raises as [fetch_outcome] says. *)
Lemma update_outcome self x :
  outcome (_async_update_data self x) = fetch_outcome x.
Proof.
  unfold _async_update_data. rewrite outcome_try_except.
  destruct x as [e | [st body]].
  - destruct e; reflexivity.
  - cbn [fetch_outcome status json_result].
    rewrite outcome_bind. cbn [session_get lift outcome snd status].
    destruct (Z.eqb st 401) eqn:E401; [reflexivity |].
    rewrite outcome_bind. unfold raise_for_status. cbn [status].
    destruct (Z.leb 400 st) eqn:E400; [reflexivity |].
    cbn [lift outcome snd]. rewrite outcome_bind. cbn [json_result lift outcome snd].
    destruct body as [j | e]; [| destruct e; reflexivity].
    destruct j as [| b | n | f | s | l | d]; try reflexivity.
    + run_call. destruct (contains_substring "rtd" s); cbn; [| reflexivity].
      destruct (contains_substring "info" s); reflexivity.
    + run_call. destruct (existsb (eq_str "rtd") l); cbn; [| reflexivity].
      destruct (existsb (eq_str "info") l); reflexivity.
    + run_call. destruct (d !! "rtd") as [r |]; cbn; [| reflexivity].
      destruct (d !! "info") as [i |]; cbn; [| reflexivity].
      destruct i; reflexivity.
Qed.

(** A returned payload passed the checks. *)
Lemma fetch_outcome_checked x payload :
  fetch_outcome x = Ok payload -> checked_payload payload = true.
Proof.
  destruct x as [e | [st body]]; cbn; [discriminate |].
  destruct (Z.eqb st 401); [discriminate |].
  destruct (Z.leb 400 st); [discriminate |].
  destruct body as [j | e]; [| discriminate].
  destruct j as [| b | n | f | s | l | d]; try discriminate.
  destruct (d !! "rtd") as [r |] eqn:Hr; [| discriminate].
  destruct (d !! "info") as [i |] eqn:Hi; [| discriminate].
  destruct i; try discriminate.
  intros [= <-]. unfold checked_payload, has_group, has_object.
  now rewrite Hr, Hi.
Qed.

(** A body that fails the checks is never returned, whatever the status. *)
Lemma fetch_outcome_unchecked st body :
  checked_payload body = false ->
  fetch_outcome (GetResponse (mk_response st (Ok body))) = Raise UpdateFailed.
Proof.
  intros Hc. cbn.
  destruct (Z.eqb st 401); [reflexivity |].
  destruct (Z.leb 400 st); [reflexivity |].
  destruct body as [| b | n | f | s | l | d]; try reflexivity.
  unfold checked_payload, has_group, has_object in Hc.
  destruct (d !! "rtd"); [| reflexivity].
  destruct (d !! "info") as [i |]; [| reflexivity].
  destruct i; try reflexivity. discriminate Hc.
Qed.

Lemma async_refresh_data self x :
  data (async_refresh self x) =
  match fetch_outcome x with
  | Ok payload => payload
  | Raise _ => data self
  end.
Proof.
  unfold async_refresh. rewrite update_outcome.
  destruct (fetch_outcome x); reflexivity.
Qed.

Lemma async_refresh_flag self x :
  last_update_success (async_refresh self x) =
  match fetch_outcome x with
  | Ok _ => true
  | Raise _ => false
  end.
Proof.
  unfold async_refresh. rewrite update_outcome.
  destruct (fetch_outcome x); reflexivity.
Qed.

(** C1: a response whose body parses as JSON but lacks the "rtd" key or the
    "info" key makes the refresh fail with [UpdateFailed], and the cached
    payload of the coordinator stays as it was. *)
Theorem missing_group_fails_and_keeps_cache self st body :
  has_group "rtd" body = false \/ has_group "info" body = false ->
  outcome (_async_update_data self (GetResponse (mk_response st (Ok body))))
    = Raise UpdateFailed
  /\ data (async_refresh self (GetResponse (mk_response st (Ok body))))
     = data self.
Proof.
  intros Hmiss.
  assert (Hc : checked_payload body = false).
  { unfold checked_payload. destruct Hmiss as [-> | Hi]; [reflexivity |].
    apply andb_false_iff. right. unfold has_group in Hi. unfold has_object.
    destruct body as [| b | n | f | s | l | d]; try reflexivity.
    destruct (d !! "info"); [discriminate Hi | reflexivity]. }
  split.
  - rewrite update_outcome. now apply fetch_outcome_unchecked.
  - rewrite async_refresh_data. now rewrite fetch_outcome_unchecked.
Qed.

Lemma missing_group_fails_and_keeps_cache_witness :
  outcome (_async_update_data fresh_coordinator
             (GetResponse (mk_response 200 (Ok (JDict {["rtd" := JDict ∅]})))))
    = Raise UpdateFailed
  /\ data (async_refresh fresh_coordinator
             (GetResponse (mk_response 200 (Ok (JDict {["rtd" := JDict ∅]})))))
     = data fresh_coordinator.
Proof.
  apply (missing_group_fails_and_keeps_cache fresh_coordinator 200
           (JDict {["rtd" := JDict ∅]})).
  right. reflexivity.
Defined.

(** C8 (the code at status 401): the [ConfigEntryAuthFailed] that the
    status check raises is caught by the [except Exception] clause of the
    same [try], and the call raises [UpdateFailed]. *)
Theorem status_401_raises_UpdateFailed self body :
  outcome (_async_update_data self (GetResponse (mk_response 401 body)))
    = Raise UpdateFailed.
Proof. rewrite update_outcome. reflexivity. Qed.

(** C9, the claim as stated fails: a response whose "rtd" is null passes
    the checks of the refresh, and the payload replaces a cache that was
    not null, although its "rtd" group is no object. *)
Lemma null_rtd_replaces_the_cache :
  data fresh_coordinator = sample_payload
  /\ outcome (_async_update_data fresh_coordinator (answer null_rtd_payload))
     = Ok null_rtd_payload
  /\ data (async_refresh fresh_coordinator (answer null_rtd_payload))
     = null_rtd_payload
  /\ complete_payload null_rtd_payload = false.
Proof. vm_compute. repeat split; reflexivity. Qed.

(** C9, amended: a refresh returns a payload that passed its checks, a JSON
    object with the "rtd" key, whatever is under it, and with an "info"
    group that is an object, and that payload then replaces the cache; or it
    raises and the cache stays as it was. *)
Theorem refresh_caches_checked_payload_or_nothing self x :
  match outcome (_async_update_data self x) with
  | Ok payload =>
      checked_payload payload = true
      /\ data (async_refresh self x) = payload
  | Raise _ => data (async_refresh self x) = data self
  end.
Proof.
  rewrite async_refresh_data, update_outcome.
  destruct (fetch_outcome x) as [payload | e] eqn:Hx; [| reflexivity].
  split; [| reflexivity]. now apply fetch_outcome_checked with (x := x).
Qed.

(** Over a whole run the cache is empty or a payload that passed the
    checks. *)
Lemma refreshes_cache_invariant xs : forall self,
  data self = JNull \/ checked_payload (data self) = true ->
  data (refreshes self xs) = JNull
  \/ checked_payload (data (refreshes self xs)) = true.
Proof.
  induction xs as [| x xs IH]; intros self Hinv; [exact Hinv |].
  cbn. apply IH. rewrite async_refresh_data.
  destruct (fetch_outcome x) as [payload | e] eqn:Hx; [| exact Hinv].
  right. now apply fetch_outcome_checked with (x := x).
Qed.

(** ** Availability *)

Lemma available_checked self :
  checked_payload (data self) = true ->
  available self = Ok (last_update_success self).
Proof.
  unfold checked_payload, has_group, available.
  destruct (data self) as [| b | n | f | s | l | d]; try discriminate.
  destruct (d !! "rtd") eqn:Hr; [| discriminate]. intros _.
  destruct (last_update_success self); cbn; [| reflexivity].
  now rewrite Hr.
Qed.

Lemma available_stale self :
  last_update_success self = false -> available self = Ok false.
Proof. intros H. unfold available. now rewrite H. Qed.

(** C3, the claim as stated fails: after a good refresh has cached a payload
    with the "rtd" group, a refresh that times out leaves that payload in
    the cache and the sensors unavailable. *)
Lemma cached_payload_yet_unavailable :
  outcome (_async_update_data sample_coordinator (answer sample_payload))
    = Ok sample_payload
  /\ data stale_coordinator = sample_payload
  /\ has_group "rtd" (data stale_coordinator) = true
  /\ available stale_coordinator = Ok false.
Proof. vm_compute. repeat split; reflexivity. Qed.

(** C3, amended: a sensor is available exactly after a refresh that
    succeeded.  A refresh that returns a payload makes every sensor
    available; one that raises makes every sensor unavailable and keeps the
    cached payload; and before any payload the sensors are unavailable. *)
Theorem available_follows_last_refresh self x host name interval :
  match outcome (_async_update_data self x) with
  | Ok payload =>
      available (async_refresh self x) = Ok true
      /\ data (async_refresh self x) = payload
  | Raise _ =>
      available (async_refresh self x) = Ok false
      /\ data (async_refresh self x) = data self
  end
  /\ available (coordinator_init host name interval) = Ok false.
Proof.
  split; [| reflexivity].
  pose proof (async_refresh_data self x) as Hd.
  pose proof (async_refresh_flag self x) as Hf.
  rewrite update_outcome.
  destruct (fetch_outcome x) as [payload | e] eqn:Hx.
  - split; [| exact Hd].
    rewrite available_checked, Hf; [reflexivity |].
    rewrite Hd. now apply fetch_outcome_checked with (x := x).
  - split; [| exact Hd]. now apply available_stale.
Qed.

(** ** The sensors *)

Lemma available_with_rtd c p group :
  data c = JDict p -> p !! "rtd" = Some group ->
  available c = Ok (last_update_success c).
Proof.
  intros Hd Hr. unfold available. rewrite Hd. cbn. rewrite Hr.
  now destruct (last_update_success c).
Qed.

Lemma numeric_category_member (dc : option SensorDeviceClass) :
  match dc with
  | Some c =>
      bool_decide (c ∈ [TEMPERATURE; HUMIDITY; PRESSURE; WIND_SPEED;
                        PRECIPITATION; PRECIPITATION_INTENSITY; IRRADIANCE])
  | None => false
  end = true
  <-> exists c, dc = Some c /\ numeric_category c.
Proof.
  unfold numeric_category. split.
  - destruct dc as [c |]; [| discriminate].
    intros H. exists c. split; [reflexivity |].
    destruct c; try discriminate H; tauto.
  - intros (c & -> & Hc).
    destruct Hc as [-> | [-> | [-> | [-> | [-> | [-> | ->]]]]]]; reflexivity.
Qed.

Lemma needs_number_conversion self :
  needs_number self <-> is_numeric_conversion_needed self = true.
Proof.
  unfold needs_number, is_numeric_conversion_needed.
  rewrite !orb_true_iff, !andb_true_iff, !bool_decide_eq_true, String.eqb_eq.
  rewrite numeric_category_member. tauto.
Qed.


Lemma no_reading_placeholder value :
  value <> JNull -> ~ no_reading (Some value) ->
  is_str value && is_placeholder value = false.
Proof.
  intros Hn Hr. destruct value as [| b | n | f | s | l | d]; try reflexivity.
  cbn in *. apply orb_false_iff. split; apply String.eqb_neq; tauto.
Qed.

Lemma bind_lift_ok {A B} (a : A) (f : A -> M B) : (lift (Ok a) ≫= f) = f a.
Proof. unfold mbind, M_mbind, M_bind, lift. destruct (f a); reflexivity. Qed.

Lemma bind_lift_raise {A B} (e : exc_class) (f : A -> M B) :
  (lift (Raise e) ≫= f) = raise e.
Proof. reflexivity. Qed.

Lemma bind_log {B} lv msg (f : unit -> M B) :
  (log lv msg ≫= f) = ((lv, msg) :: logs (f tt), outcome (f tt)).
Proof. unfold mbind, M_mbind, M_bind, log. destruct (f tt); reflexivity. Qed.

Lemma try_except_ret {A} (a : A) (hs : list (handler A)) :
  try_except (mret a) hs = lift (Ok a).
Proof. reflexivity. Qed.

(** C5: when the raw value at the rtd key of a standard sensor is missing,
    null, the string "---" or a blank string once trimmed, the projected
    value is null: the call returns [None] and raises nothing. *)
Theorem no_reading_projects_to_null self c p rtd :
  data c = JDict p -> p !! "rtd" = Some (JDict rtd) ->
  no_reading (rtd !! _json_data_key self) ->
  outcome (standard_native_value self c) = Ok JNull.
Proof.
  intros Hd Hr Hno. unfold standard_native_value.
  rewrite (available_with_rtd c p (JDict rtd) Hd Hr), bind_lift_ok.
  destruct (last_update_success c); [| reflexivity]. cbn [negb].
  rewrite Hd. unfold py_get. rewrite Hr, bind_lift_ok.
  unfold py_not_in, py_contains, py_getitem.
  destruct (rtd !! _json_data_key self) as [value |] eqn:Hv;
    rewrite bind_lift_ok; cbn [negb]; [| reflexivity].
  rewrite bind_lift_ok.
  destruct value as [| b | n | f | s | l | d]; try contradiction; [reflexivity |].
  cbn in Hno. unfold is_placeholder.
  assert (Hp : String.eqb (strip s) "---" || String.eqb (strip s) "" = true).
  { apply orb_true_iff. destruct Hno as [-> | ->]; [left | right]; reflexivity. }
  rewrite Hp. reflexivity.
Qed.

(** C6: for a sensor whose category needs a number (temperature, humidity,
    pressure, wind speed, precipitation, precipitation intensity,
    irradiance), or whose field is a degree value with no category, or which
    is the UV index, the raw value is coerced to a float, which is the
    projected value; when the coercion fails on a value that is no number
    ([ValueError] or [TypeError]) the projected value is null, one warning is
    logged, and nothing is raised. *)
Theorem numeric_sensor_coerces self c p rtd value :
  last_update_success c = true ->
  data c = JDict p -> p !! "rtd" = Some (JDict rtd) ->
  rtd !! _json_data_key self = Some value ->
  ~ no_reading (Some value) ->
  needs_number self ->
  match py_float value with
  | Ok number => standard_native_value self c = ([], Ok (JFloat number))
  | Raise e =>
      e = ValueError \/ e = TypeError ->
      standard_native_value self c =
        ([(WARNING, "Sensor '%s': Could not convert value '%s' (type: %s) to float.")],
         Ok JNull)
  end.
Proof.
  intros Hs Hd Hr Hv Hno Hnum. unfold standard_native_value.
  rewrite (available_with_rtd c p (JDict rtd) Hd Hr), Hs, Hd, bind_lift_ok.
  apply needs_number_conversion in Hnum.
  assert (Hnn : value <> JNull) by (intros ->; apply Hno; exact I).
  pose proof (no_reading_placeholder value Hnn Hno) as Hp.
  cbn [negb]. unfold py_get. rewrite Hr, bind_lift_ok.
  unfold py_not_in, py_contains, py_getitem. rewrite Hv, !bind_lift_ok.
  cbn [negb]. rewrite Hp, Hnum.
  destruct (py_float value) as [number | e] eqn:Hf.
  - rewrite bind_lift_ok. now destruct value.
  - rewrite bind_lift_raise. intros [-> | ->]; now destruct value.
Qed.

(** C4: the Barometer Trend sensor decodes rtd.bartr by exact numeric
    match against the table (-60, -20, 0, 20, 60), with "---" for any other
    number; a value that is no number gives "Unknown"; a missing bartr key
    gives null. *)
Theorem baro_trend_decodes self c p rtd :
  last_update_success c = true ->
  data c = JDict p -> p !! "rtd" = Some (JDict rtd) ->
  match rtd !! "bartr" with
  | None => returned_value (baro_trend_native_value self c) = Ok JNull
  | Some raw =>
      match py_float raw with
      | Ok code =>
          returned_value (baro_trend_native_value self c)
            = Ok (JStr (decode_trend code))
      | Raise e =>
          e = ValueError \/ e = TypeError ->
          returned_value (baro_trend_native_value self c) = Ok (JStr "Unknown")
      end
  end.
Proof.
  intros Hs Hd Hr. unfold baro_trend_native_value.
  rewrite (available_with_rtd c p (JDict rtd) Hd Hr), Hs, Hd, bind_lift_ok.
  cbn [negb]. unfold py_get. rewrite Hr, bind_lift_ok.
  unfold py_not_in, py_contains, py_getitem.
  destruct (rtd !! "bartr") as [raw |] eqn:Hv; rewrite bind_lift_ok; cbn [negb];
    [| reflexivity].
  rewrite bind_lift_ok.
  destruct (py_float raw) as [code | e] eqn:Hf.
  - rewrite bind_lift_ok, try_except_ret, bind_lift_ok.
    unfold decode_trend, trend_table. cbn [List.find fst snd].
    destruct (float_eq_int code (-60)); [reflexivity |].
    destruct (float_eq_int code (-20)); [reflexivity |].
    destruct (float_eq_int code 0); [reflexivity |].
    destruct (float_eq_int code 20); [reflexivity |].
    destruct (float_eq_int code 60); reflexivity.
  - rewrite bind_lift_raise. intros [-> | ->]; reflexivity.
Qed.

Lemma float_eq_int_finite code (n : Z) s m e :
  binary_normalize prec emax n 0 false = S754_finite s m e ->
  float_eq_int code n = true -> code = S754_finite s m e.
Proof.
  unfold float_eq_int. intros ->. unfold SFeqb.
  destruct code as [s' | s' | | s' m' e']; cbn; try discriminate.
  - destruct s; discriminate.
  - destruct s'; discriminate.
  - change (Pos.compare_cont Eq m' m) with (Pos.compare m' m).
    destruct s', s; try discriminate;
      destruct (Z.compare_spec e' e) as [-> | |]; try discriminate;
      destruct (Pos.compare_spec m' m) as [-> | |]; cbn; try discriminate;
      reflexivity.
Qed.

(** The table has one label per number: a number that equals a code of the
    table decodes to the label of that code, and a number that equals none
    decodes to ["---"]. *)
Lemma decode_trend_exact code :
  (forall n label, In (n, label) trend_table ->
     float_eq_int code n = true -> decode_trend code = label)
  /\ ((forall n label, In (n, label) trend_table -> float_eq_int code n = false) ->
      decode_trend code = "---").
Proof.
  split.
  - intros n label Hin Heq.
    cbn in Hin.
    destruct Hin as [[= <- <-] | [[= <- <-] | [[= <- <-] | [[= <- <-] | [[= <- <-] | []]]]]].
    + apply (float_eq_int_finite code (-60) true 8444249301319680 (-47) eq_refl) in Heq.
      subst. vm_compute. reflexivity.
    + apply (float_eq_int_finite code (-20) true 5629499534213120 (-48) eq_refl) in Heq.
      subst. vm_compute. reflexivity.
    + destruct code as [s | s | | s m e]; try discriminate Heq; try reflexivity.
      all: destruct s; discriminate Heq.
    + apply (float_eq_int_finite code 20 false 5629499534213120 (-48) eq_refl) in Heq.
      subst. vm_compute. reflexivity.
    + apply (float_eq_int_finite code 60 false 8444249301319680 (-47) eq_refl) in Heq.
      subst. vm_compute. reflexivity.
  - intros Hnone. unfold decode_trend, trend_table. cbn [List.find fst snd].
    rewrite (Hnone (-60) "Falling Rapidly"), (Hnone (-20) "Falling Slowly"),
      (Hnone 0 "Steady"), (Hnone 20 "Rising Slowly"), (Hnone 60 "Rising Rapidly");
      cbn; tauto.
Qed.

(** ** Timestamps *)

(** Case analysis on an integer known to lie between 0 and [n]. *)
Ltac cases_upto a n :=
  lazymatch n with
  | O => assert (a = 0) by lia; subst a
  | S ?n' =>
      let z := eval cbv in (Z.of_nat n) in
      destruct (Z.eq_dec a z) as [-> | ?]; [| cases_upto a n']
  end.

(** Linear arithmetic with division and remainder by a constant. *)
Ltac div_lia := Z.to_euclidean_division_equations; lia.

Lemma digit_of_digit_char a :
  0 <= a <= 9 -> digit_of_ascii (digit_char a) = Some a.
Proof. intros H. cases_upto a 9%nat; reflexivity. Qed.

Lemma digit_digit_char a : 0 <= a <= 9 -> digit (digit_char a) = true.
Proof. intros H. unfold digit. now rewrite digit_of_digit_char. Qed.

Lemma is_space_digit_char a : 0 <= a <= 9 -> is_space (digit_char a) = false.
Proof. intros H. cases_upto a 9%nat; reflexivity. Qed.

Lemma py_int_two_digits v : 0 <= v <= 99 -> py_int (two_digits v) = v.
Proof.
  intros H. unfold py_int, two_digits.
  repeat (cbn [int_acc]; rewrite digit_of_digit_char by div_lia).
  cbn [int_acc]. div_lia.
Qed.

Lemma py_int_four_digits v : 0 <= v <= 9999 -> py_int (four_digits v) = v.
Proof.
  intros H. unfold py_int, four_digits, two_digits.
  repeat (cbn [int_acc]; rewrite digit_of_digit_char by div_lia).
  cbn [int_acc]. div_lia.
Qed.

Section Groups.
Context {R : Type}.
Implicit Types (k : string -> string -> option R) (rest : string) (r : R).

Lemma group_Y k v rest :
  0 <= v <= 9999 ->
  group re_Y k (four_digits v +:+ rest) = k (four_digits v) rest.
Proof.
  intros H. unfold re_Y, four_digits, two_digits.
  cbv [append].
  repeat (cbn [group match_seq]; rewrite digit_digit_char by div_lia).
  cbn [group match_seq]. now destruct (k _ rest).
Qed.

Lemma group_m k v rest r :
  1 <= v <= 12 ->
  k (two_digits v) rest = Some r ->
  group re_m k (two_digits v +:+ rest) = Some r.
Proof.
  intros H Hk. assert (H0 : 0 <= v <= 12) by lia.
  cases_upto v 12%nat; try lia; vm_compute in Hk |- *; now rewrite Hk.
Qed.

Lemma group_d k v rest r :
  1 <= v <= 31 ->
  k (two_digits v) rest = Some r ->
  group re_d k (two_digits v +:+ rest) = Some r.
Proof.
  intros H Hk. assert (H0 : 0 <= v <= 31) by lia.
  cases_upto v 31%nat; try lia; vm_compute in Hk |- *; now rewrite Hk.
Qed.

Lemma group_H k v rest r :
  0 <= v <= 23 ->
  k (two_digits v) rest = Some r ->
  group re_H k (two_digits v +:+ rest) = Some r.
Proof.
  intros H Hk.
  cases_upto v 23%nat; vm_compute in Hk |- *; now rewrite Hk.
Qed.

Lemma group_M k v rest r :
  0 <= v <= 59 ->
  k (two_digits v) rest = Some r ->
  group re_M k (two_digits v +:+ rest) = Some r.
Proof.
  intros H Hk.
  cases_upto v 59%nat; vm_compute in Hk |- *; now rewrite Hk.
Qed.

Lemma group_S k v rest r :
  0 <= v <= 59 ->
  k (two_digits v) rest = Some r ->
  group re_S k (two_digits v +:+ rest) = Some r.
Proof.
  intros H Hk.
  cases_upto v 59%nat; vm_compute in Hk |- *; now rewrite Hk.
Qed.

Lemma spaces_plus_blank (k' : string -> option R) v rest :
  0 <= v <= 99 ->
  spaces_plus k' (" " +:+ two_digits v +:+ rest) = k' (two_digits v +:+ rest).
Proof.
  intros H. cbv [two_digits append]. cbn [spaces_plus spaces_star].
  change (is_space " ") with true. cbv iota.
  now rewrite is_space_digit_char by div_lia.
Qed.
End Groups.



Lemma days_in_month_le y m : days_in_month y m <= 31.
Proof.
  unfold days_in_month. destruct (is_leap y);
    repeat match goal with
           | |- context [match ?p with _ => _ end] => destruct p
           end; lia.
Qed.

Lemma valid_datetime_bounds dt :
  valid_datetime dt = true ->
  1 <= year dt <= 9999 /\ 1 <= month dt <= 12 /\ 1 <= day dt <= 31
  /\ 0 <= hour dt <= 23 /\ 0 <= minute dt <= 59 /\ 0 <= second dt <= 59.
Proof.
  unfold valid_datetime. rewrite !andb_true_iff, !Z.leb_le.
  pose proof (days_in_month_le (year dt) (month dt)). lia.
Qed.

Lemma lit_append {R} (a : ascii) (k : string -> option R) s :
  lit a k (String a EmptyString +:+ s) = k s.
Proof. cbv [append]. cbn [lit]. now rewrite Ascii.eqb_refl. Qed.

Lemma composite_text dt :
  date_text dt +:+ " " +:+ time_text dt
  = four_digits (year dt) +:+ "/" +:+ two_digits (month dt) +:+ "/"
    +:+ two_digits (day dt) +:+ " " +:+ two_digits (hour dt) +:+ ":"
    +:+ two_digits (minute dt) +:+ ":" +:+ two_digits (second dt) +:+ "".
Proof. reflexivity. Qed.

Lemma format_regex_round_trip dt :
  valid_datetime dt = true ->
  format_regex (date_text dt +:+ " " +:+ time_text dt)
  = Some (four_digits (year dt), two_digits (month dt), two_digits (day dt),
          two_digits (hour dt), two_digits (minute dt), two_digits (second dt),
          EmptyString).
Proof.
  intros Hv. apply valid_datetime_bounds in Hv.
  destruct Hv as (Hy & Hm & Hd & HH & HM & HS).
  rewrite composite_text. unfold format_regex.
  rewrite group_Y by lia. rewrite lit_append.
  apply group_m; [lia |]. rewrite lit_append.
  apply group_d; [lia |]. rewrite spaces_plus_blank by lia.
  apply group_H; [lia |]. rewrite lit_append.
  apply group_M; [lia |]. rewrite lit_append.
  apply group_S; [lia |]. reflexivity.
Qed.

(** Parsing the text of a valid timestamp gives the timestamp back. *)
Lemma strptime_round_trip dt :
  valid_datetime dt = true ->
  strptime (date_text dt +:+ " " +:+ time_text dt) = Ok dt.
Proof.
  intros Hv. unfold strptime. rewrite format_regex_round_trip by exact Hv.
  pose proof (valid_datetime_bounds dt Hv) as (Hy & Hm & Hd & HH & HM & HS).
  rewrite py_int_four_digits by lia. rewrite !py_int_two_digits by lia.
  destruct dt as [y m d h mi se]. cbn [year month day hour minute second] in *.
  now rewrite Hv.
Qed.

Lemma strptime_raises s e : strptime s = Raise e -> e = ValueError.
Proof.
  unfold strptime.
  destruct (format_regex s) as [[[[[[[Y m] d] H] Mi] Se] rest] |];
    [| now intros [= <-]].
  destruct rest; [| now intros [= <-]].
  destruct (valid_datetime _); [discriminate | now intros [= <-]].
Qed.

(** C7: the Last Update sensor joins rtd.date and rtd.time with a blank and
    reads the text as "%Y/%m/%d %H:%M:%S"; the value is that timestamp in the
    local zone.  When a component is missing (or null, or empty) the value
    is null; when the joined text does not parse the value is null; and the
    text YYYY/MM/DD with HH:MM:SS of a valid timestamp gives that
    timestamp. *)
Theorem last_update_composes c p rtd :
  last_update_success c = true ->
  data c = JDict p -> p !! "rtd" = Some (JDict rtd) ->
  (py_truthy (component rtd "date") && py_truthy (component rtd "time") = false ->
   outcome (last_update_native_value c) = Ok None)
  /\ (forall d t,
        rtd !! "date" = Some (JStr d) -> rtd !! "time" = Some (JStr t) ->
        d <> "" -> t <> "" ->
        outcome (last_update_native_value c) =
        match strptime (d +:+ " " +:+ t) with
        | Ok naive => Ok (Some (Local naive))
        | Raise _ => Ok None
        end)
  /\ (forall dt,
        valid_datetime dt = true ->
        rtd !! "date" = Some (JStr (date_text dt)) ->
        rtd !! "time" = Some (JStr (time_text dt)) ->
        outcome (last_update_native_value c) = Ok (Some (Local dt))).
Proof.
  intros Hs Hd Hr.
  assert (Hstep : last_update_native_value c =
    if py_truthy (component rtd "date") && py_truthy (component rtd "time") then
      try_except
        (naive_dt ← lift (strptime_text
                            (join_blank (py_str (component rtd "date"))
                                        (py_str (component rtd "time"))));
         mret (Some (as_local naive_dt)))
        [ ([ValueError], fun _ =>
             _ ← log ERROR "LastUpdateSensor: Could not parse date/time: date='%s', time='%s'.";
             mret None) ]
    else
      _ ← log DEBUG "LastUpdateSensor: Date ('%s') or time ('%s') not found.";
      mret None).
  { unfold last_update_native_value.
    rewrite (available_with_rtd c p (JDict rtd) Hd Hr), Hs, Hd, bind_lift_ok.
    cbn [negb]. unfold py_get. rewrite Hr, !bind_lift_ok. reflexivity. }
  assert (Hstr : forall d t,
    rtd !! "date" = Some (JStr d) -> rtd !! "time" = Some (JStr t) ->
    d <> "" -> t <> "" ->
    outcome (last_update_native_value c) =
    match strptime (d +:+ " " +:+ t) with
    | Ok naive => Ok (Some (Local naive))
    | Raise _ => Ok None
    end).
  { intros d t Hdate Htime Hdne Htne. rewrite Hstep. unfold component.
    rewrite Hdate, Htime. cbn [py_truthy py_str join_blank strptime_text].
    apply String.eqb_neq in Hdne, Htne. rewrite Hdne, Htne. cbn [negb andb].
    destruct (strptime (d +:+ " " +:+ t)) as [naive | e] eqn:Hp.
    - rewrite bind_lift_ok. reflexivity.
    - apply strptime_raises in Hp. subst e. reflexivity. }
  split; [| split].
  - intros Hfalsy. rewrite Hstep, Hfalsy. reflexivity.
  - exact Hstr.
  - intros dt Hv Hdate Htime.
    rewrite (Hstr _ _ Hdate Htime); [| discriminate | discriminate].
    now rewrite strptime_round_trip.
Qed.

(** ** Host validation *)

Lemma bind_ret {A B} (a : A) (f : A -> M B) : (mret a ≫= f) = f a.
Proof. apply (bind_lift_ok a f). Qed.

Lemma bind_assoc {A B C} (m : M A) (f : A -> M B) (g : B -> M C) :
  ((m ≫= f) ≫= g) = (m ≫= fun a => f a ≫= g).
Proof.
  unfold mbind, M_mbind, M_bind.
  destruct m as [l [a | e]]; [| reflexivity].
  destruct (f a) as [l1 [b | e1]]; [| reflexivity].
  destruct (g b) as [l2 r]. now rewrite app_assoc.
Qed.

Lemma outcome_log_bind {B} lv msg (f : unit -> M B) :
  outcome (log lv msg ≫= f) = outcome (f tt).
Proof. now rewrite bind_log. Qed.

(** C10, the claim as stated fails: a response with status 200 whose body is
    the JSON array [[]] is rejected with [ConnectionError]. *)
Lemma json_array_is_rejected :
  outcome (validate_host_connection "192.168.1.20" (answer (JList [])))
    = Raise ConnectionError.
Proof. reflexivity. Qed.

Lemma validate_info_object host info (k : gmap string text -> M (gmap string text)) :
  (forall di, k di = mret di) ->
  outcome
    (unique_id_val ← lift (py_get (JDict info) DEVICE_WIFI_LOGGER_ID_KEY JNull);
     device_info ←
       (if py_truthy unique_id_val then
          mret (<["unique_id" := py_str unique_id_val]> (∅ : gmap string text))
        else
          _ ← log WARNING "WID not found in device info, using host for unique_id: %s";
          mret (<["unique_id" := Text ("vantage_weather_" +:+ host)]> ∅));
     title_val ← lift (py_get (JDict info) DEVICE_STATION_NAME_KEY JNull);
     device_info ←
       (if py_truthy title_val then
          mret (<["title" := py_str title_val]> device_info)
        else
          _ ← log DEBUG "Station name not found, using host for title: %s";
          mret (<["title" := Text host]> device_info));
     k device_info)
  = Ok (device_info_of host info).
Proof.
  intros Hk. unfold py_get. rewrite !bind_lift_ok.
  unfold device_info_of. fold (component info DEVICE_WIFI_LOGGER_ID_KEY).
  destruct (py_truthy (component info DEVICE_WIFI_LOGGER_ID_KEY));
    rewrite ?bind_assoc, ?outcome_log_bind, bind_ret, bind_lift_ok;
    fold (component info DEVICE_STATION_NAME_KEY);
    destruct (py_truthy (component info DEVICE_STATION_NAME_KEY));
    rewrite ?bind_assoc, ?outcome_log_bind, !bind_ret, Hk; reflexivity.
Qed.

(** [validate_host_connection] returns or raises as [validation_outcome]
    says. *)
Lemma validate_outcome host x :
  outcome (validate_host_connection host x) = validation_outcome host x.
Proof.
  unfold validate_host_connection.
  rewrite outcome_try_except, outcome_log_bind.
  destruct x as [e | [st body]].
  - destruct e; reflexivity.
  - cbn [session_get validation_outcome status json_result].
    rewrite bind_lift_ok. unfold raise_for_status. cbn [status json_result].
    destruct (Z.leb 400 st); [reflexivity |].
    rewrite bind_lift_ok.
    destruct body as [j | e]; [| destruct e; reflexivity].
    rewrite bind_lift_ok, outcome_log_bind.
    destruct j as [| b | n | f | s | l | d]; try reflexivity.
    change (py_get (JDict d) "info" (JDict ∅))
      with (Ok (match d !! "info" with Some v => v | None => JDict ∅ end)).
    rewrite bind_lift_ok.
    destruct (d !! "info") as [i |].
    + destruct i as [| b | n | f | s | l | info]; try reflexivity.
      now rewrite validate_info_object.
    + now rewrite validate_info_object.
Qed.

(** C10, amended: on a 2xx JSON response host validation returns exactly
    when the body is a JSON object in which "info" is absent or an object,
    whatever else the object holds (no "rtd" is asked for), and it fails
    with [ConnectionError] on a body of any other shape.  The unique id is
    "vantage_weather_<host>" when "wid" is absent from the info group, and
    the title is the host when "stnname" is absent. *)
Theorem host_validation_accepts_exactly_objects host st body :
  200 <= st < 300 ->
  outcome (validate_host_connection host
             (GetResponse (mk_response st (Ok body))))
  = match body with
    | JDict d =>
        match d !! "info" with
        | None => Ok (device_info_of host ∅)
        | Some (JDict info) => Ok (device_info_of host info)
        | Some _ => Raise ConnectionError
        end
    | _ => Raise ConnectionError
    end
  /\ forall info,
       (info !! "wid" = None ->
        device_info_of host info !! "unique_id"
          = Some (Text ("vantage_weather_" +:+ host)))
       /\ (info !! "stnname" = None ->
           device_info_of host info !! "title" = Some (Text host)).
Proof.
  intros Hst. split.
  - rewrite validate_outcome. cbn [validation_outcome status json_result].
    destruct (Z.leb_spec 400 st) as [Hle | _]; [lia | reflexivity].
  - intros info. split.
    + intros Hw. unfold device_info_of, component, DEVICE_WIFI_LOGGER_ID_KEY.
      rewrite Hw. cbn [py_truthy].
      rewrite lookup_insert_ne by discriminate. apply lookup_insert_eq.
    + intros Hn. unfold device_info_of, component, DEVICE_STATION_NAME_KEY.
      rewrite Hn. cbn [py_truthy]. apply lookup_insert_eq.
Qed.

(** ** The theorems at the sample station *)

Lemma no_reading_projects_to_null_witness :
  no_reading (sample_rtd !! _json_data_key winddir_sensor)
  /\ outcome (standard_native_value winddir_sensor fresh_coordinator) = Ok JNull.
Proof.
  assert (Hno : no_reading (sample_rtd !! _json_data_key winddir_sensor)).
  { vm_compute. left. reflexivity. }
  split; [exact Hno |].
  apply (no_reading_projects_to_null winddir_sensor fresh_coordinator
           sample_body sample_rtd); [reflexivity | reflexivity | exact Hno].
Defined.

Lemma numeric_sensor_coerces_witness :
  needs_number tempout_sensor
  /\ standard_native_value tempout_sensor fresh_coordinator
     = ([], Ok (JFloat (S754_finite false 5101733952880640 (-46)))).
Proof.
  assert (Hnum : needs_number tempout_sensor).
  { left. exists TEMPERATURE. split; [reflexivity | left; reflexivity]. }
  split; [exact Hnum |].
  apply (numeric_sensor_coerces tempout_sensor fresh_coordinator
           sample_body sample_rtd (JStr "72.5"));
    [reflexivity | reflexivity | reflexivity | reflexivity | | exact Hnum].
  vm_compute. intros [H | H]; discriminate H.
Defined.

Lemma baro_trend_decodes_witness :
  last_update_success fresh_coordinator = true
  /\ returned_value (baro_trend_native_value baro_trend_sensor_init fresh_coordinator)
     = Ok (JStr "Rising Slowly").
Proof.
  split; [reflexivity |].
  apply (baro_trend_decodes baro_trend_sensor_init fresh_coordinator
           sample_body sample_rtd); reflexivity.
Defined.

Lemma last_update_composes_witness :
  valid_datetime (mk_datetime 2024 3 5 14 30 0) = true
  /\ outcome (last_update_native_value fresh_coordinator)
     = Ok (Some (Local (mk_datetime 2024 3 5 14 30 0))).
Proof.
  split; [reflexivity |].
  apply (proj2 (proj2 (last_update_composes fresh_coordinator sample_body
                         sample_rtd eq_refl eq_refl eq_refl))
           (mk_datetime 2024 3 5 14 30 0)); reflexivity.
Defined.

Lemma host_validation_accepts_exactly_objects_witness :
  200 <= 200 < 300
  /\ outcome (validate_host_connection "192.168.1.20" (answer (JDict vue_body)))
     = Ok (device_info_of "192.168.1.20" vue_info)
  /\ device_info_of "192.168.1.20" vue_info !! "unique_id"
     = Some (Text "vantage_weather_192.168.1.20").
Proof.
  assert (Hst : 200 <= 200 < 300) by lia.
  split; [exact Hst |].
  destruct (host_validation_accepts_exactly_objects "192.168.1.20" 200
              (JDict vue_body) Hst) as [Hout Hfall].
  split; [exact Hout |].
  apply (Hfall vue_info). reflexivity.
Defined.

(** ** More on the coordinator *)











(** ** More on the sensors *)











(** ** Device info *)








(** ** The entities of a config entry *)



(** ** More on host validation *)











(** ** The user step of the config flow *)




(** ** The report of the sensor platform *)


